(** * apcore: the configuration defaults, the storage adapter, the actor
      composer and the request-time framework, embedded from the Go sources.

    Go values are modelled as follows.
    - [int] is [Z] (every constant of the sources fits in 32 bits),
      [float64] is the binary64 type [PrimFloat.float], [string] is [string];
    - a pointer or an interface value that the code returns or tests as
      [nil] is an [option]; a pointer that is only passed on is the value;
    - a function with several results returns a tuple, [error] being
      [option error] with [None] for [nil];
    - named results that are never assigned keep Go's zero value. *)

From Stdlib Require Import ZArith List String Bool Lia PrimFloat.
Import ListNotations.

Open Scope string_scope.
Open Scope Z_scope.

(** ** Go values shared by all files *)

(** Errors of the sources are all built by [fmt.Errorf]; a caller can only
    observe their message. *)
Inductive error : Type :=
| Errorf (msg : string).

Definition errorMessage (e : error) : string :=
  match e with Errorf m => m end.

(** [net/url.URL], cut down to the components that identify a resource. *)
Record URL : Type := mkURL {
  Scheme : string;
  Host : string;
  Path : string
}.

Definition URL_eqb (u v : URL) : bool :=
  String.eqb (Scheme u) (Scheme v) &&
  String.eqb (Host u) (Host v) &&
  String.eqb (Path u) (Path v).

(** [vocab.Type] of go-fed: an ActivityStreams value.  The sources never look
    inside one; the type name and the JSON-LD id are what names it. *)
Record vocabType : Type := mkVocabType {
  GetTypeName : string;
  GetJSONLDId : option URL
}.

(** Types of the repository and of its libraries that the embedded files only
    pass around. *)
Class Collaborators : Type := {
  context : Type;
  database : Type;
  clock : Type;
  paths : Type;
  transportController : Type;
  responseWriter : Type;
  request : Type;
  tokenInfo : Type;
  orderedCollectionPage : Type;
  collection : Type;
  activity : Type
}.

(** ** config.go *)
Module Config.

Definition postgresDB : string := "postgres".

(** [bcrypt.DefaultCost] of golang.org/x/crypto/bcrypt. *)
Definition bcrypt_DefaultCost : Z := 10.

Record serverConfig : Type := {
  sr_Host : string;
  CertFile : string;
  KeyFile : string;
  CookieAuthKeyFile : string;
  CookieEncryptionKeyFile : string;
  CookieMaxAge : Z;
  CookieSessionName : string;
  HttpsReadTimeoutSeconds : Z;
  HttpsWriteTimeoutSeconds : Z;
  RedirectReadTimeoutSeconds : Z;
  RedirectWriteTimeoutSeconds : Z;
  StaticRootDirectory : string;
  SaltSize : Z;
  BCryptStrength : Z;
  RSAKeySize : Z
}.

Definition defaultServerConfig : serverConfig :=
  {| sr_Host := "";
     CertFile := "";
     KeyFile := "";
     CookieAuthKeyFile := "";
     CookieEncryptionKeyFile := "";
     CookieMaxAge := 86400;
     CookieSessionName := "";
     HttpsReadTimeoutSeconds := 0;
     HttpsWriteTimeoutSeconds := 0;
     RedirectReadTimeoutSeconds := 0;
     RedirectWriteTimeoutSeconds := 0;
     StaticRootDirectory := "";
     SaltSize := 32;
     BCryptStrength := bcrypt_DefaultCost;
     RSAKeySize := 1024 |}.

Record oAuthConfig : Type := {
  AccessTokenExpiry : Z;
  RefreshTokenExpiry : Z
}.

Definition defaultOAuthConfig : oAuthConfig :=
  {| AccessTokenExpiry := 3600;
     RefreshTokenExpiry := 7200 |}.

Record postgresConfig : Type := {
  DatabaseName : string;
  UserName : string;
  pg_Host : string;
  Port : Z;
  SSLMode : string;
  FallbackApplicationName : string;
  ConnectTimeout : Z;
  SSLCert : string;
  SSLKey : string;
  SSLRootCert : string;
  Schema : string
}.

(** The zero value of the struct. *)
Definition zero_postgresConfig : postgresConfig :=
  {| DatabaseName := "";
     UserName := "";
     pg_Host := "";
     Port := 0;
     SSLMode := "";
     FallbackApplicationName := "";
     ConnectTimeout := 0;
     SSLCert := "";
     SSLKey := "";
     SSLRootCert := "";
     Schema := "" |}.

(** [return postgresConfig{}] *)
Definition defaultPostgresConfig : postgresConfig := zero_postgresConfig.

Record databaseConfig : Type := {
  DatabaseKind : string;
  ConnMaxLifetimeSeconds : Z;
  MaxOpenConns : Z;
  MaxIdleConns : Z;
  DefaultCollectionPageSize : Z;
  PostgresConfig : postgresConfig
}.

Definition set_PostgresConfig (d : databaseConfig) (p : postgresConfig)
  : databaseConfig :=
  {| DatabaseKind := DatabaseKind d;
     ConnMaxLifetimeSeconds := ConnMaxLifetimeSeconds d;
     MaxOpenConns := MaxOpenConns d;
     MaxIdleConns := MaxIdleConns d;
     DefaultCollectionPageSize := DefaultCollectionPageSize d;
     PostgresConfig := p |}.

(** The composite literal names three fields; the others start at their
    zero value.  On an unsupported kind the function returns [d] as built
    so far together with the error. *)
Definition defaultDatabaseConfig (dbkind : string)
  : databaseConfig * option error :=
  let d := {| DatabaseKind := dbkind;
              ConnMaxLifetimeSeconds := 0;
              MaxOpenConns := 0;
              MaxIdleConns := 2;
              DefaultCollectionPageSize := 10;
              PostgresConfig := zero_postgresConfig |} in
  if negb (String.eqb dbkind postgresDB) then
    (d, Some (Errorf ("unsupported database kind: " ++ dbkind)))
  else
    (set_PostgresConfig d defaultPostgresConfig, None).

Record httpSignaturesConfig : Type := {
  Algorithms : list string;
  DigestAlgorithm : string;
  GetHeaders : list string;
  PostHeaders : list string
}.

Definition defaultHttpSignaturesConfig : httpSignaturesConfig :=
  {| Algorithms := ["sha256"; "sha512"];
     DigestAlgorithm := "SHA-256";
     GetHeaders := ["(request-target)"; "Date"; "Digest"];
     PostHeaders := ["(request-target)"; "Date"; "Digest"] |}.

Record activityPubConfig : Type := {
  ClockTimezone : string;
  OutboundRateLimitQPS : float;
  OutboundRateLimitBurst : Z;
  HttpSignaturesConfig : httpSignaturesConfig;
  MaxInboxForwardingRecursionDepth : Z;
  MaxDeliveryRecursionDepth : Z
}.

Definition defaultActivityPubConfig : activityPubConfig :=
  {| ClockTimezone := "UTC";
     OutboundRateLimitQPS := 10%float;
     OutboundRateLimitBurst := 50;
     HttpSignaturesConfig := defaultHttpSignaturesConfig;
     MaxInboxForwardingRecursionDepth := 50;
     MaxDeliveryRecursionDepth := 50 |}.

Record config : Type := {
  ServerConfig : serverConfig;
  OAuthConfig : oAuthConfig;
  DatabaseConfig : databaseConfig;
  ActivityPubConfig : activityPubConfig
}.

(** The result is a [*config]: [nil] when the database kind is refused. *)
Definition defaultConfig (dbkind : string) : option config * option error :=
  match defaultDatabaseConfig dbkind with
  | (_, Some err) => (None, Some err)
  | (dbc, None) =>
      (Some {| ServerConfig := defaultServerConfig;
               OAuthConfig := defaultOAuthConfig;
               DatabaseConfig := dbc;
               ActivityPubConfig := defaultActivityPubConfig |},
       None)
  end.

End Config.

(** ** ap_db.go: the [pub.Database] adapter *)
Module Apdb.
Section WithCollaborators.
Context `{Collaborators}.

Record apdb : Type := { db : database }.

Definition newApdb (d : database) : apdb := {| db := d |}.

(** Every method has the pointer receiver [a *apdb]: it may read and
    write the adapter.  A method is a state transformer on [apdb]. *)
Definition Store (A : Type) : Type := apdb -> A * apdb.

Definition ret {A : Type} (x : A) : Store A := fun a => (x, a).

Definition bind {A B : Type} (m : Store A) (k : A -> Store B) : Store B :=
  fun a => let (x, a') := m a in k x a'.

Definition run {A : Type} (m : Store A) (a : apdb) : A := fst (m a).

Definition Lock (c : context) (id : option URL) : Store (option error) :=
  ret None.

Definition Unlock (c : context) (id : option URL) : Store (option error) :=
  ret None.

Definition InboxContains (c : context) (inbox id : option URL)
  : Store (bool * option error) :=
  ret (false, None).

Definition GetInbox (c : context) (inboxIRI : option URL)
  : Store (option orderedCollectionPage * option error) :=
  ret (None, None).

Definition SetInbox (c : context) (inbox : option orderedCollectionPage)
  : Store (option error) :=
  ret None.

Definition Owns (c : context) (id : option URL)
  : Store (bool * option error) :=
  ret (false, None).

Definition ActorForOutbox (c : context) (outboxIRI : option URL)
  : Store (option URL * option error) :=
  ret (None, None).

Definition ActorForInbox (c : context) (inboxIRI : option URL)
  : Store (option URL * option error) :=
  ret (None, None).

Definition OutboxForInbox (c : context) (inboxIRI : option URL)
  : Store (option URL * option error) :=
  ret (None, None).

Definition Exists (c : context) (id : option URL)
  : Store (bool * option error) :=
  ret (false, None).

Definition Get (c : context) (id : option URL)
  : Store (option vocabType * option error) :=
  ret (None, None).

Definition Create (c : context) (asType : option vocabType)
  : Store (option error) :=
  ret None.

Definition Update (c : context) (asType : option vocabType)
  : Store (option error) :=
  ret None.

Definition Delete (c : context) (id : option URL) : Store (option error) :=
  ret None.

Definition GetOutbox (c : context) (inboxIRI : option URL)
  : Store (option orderedCollectionPage * option error) :=
  ret (None, None).

Definition SetOutbox (c : context) (inbox : option orderedCollectionPage)
  : Store (option error) :=
  ret None.

Definition NewId (c : context) (t : option vocabType)
  : Store (option URL * option error) :=
  ret (None, None).

Definition Followers (c : context) (actorIRI : option URL)
  : Store (option collection * option error) :=
  ret (None, None).

Definition Following (c : context) (actorIRI : option URL)
  : Store (option collection * option error) :=
  ret (None, None).

Definition Liked (c : context) (actorIRI : option URL)
  : Store (option collection * option error) :=
  ret (None, None).

End WithCollaborators.
End Apdb.

Declare Scope store_scope.
Delimit Scope store_scope with store.
Notation "x <- m ;; k" := (Apdb.bind m (fun x => k))
(at level 61, m at next level, right associativity) : store_scope.

(** ** Callers of [Lock] and [Unlock]

    The adapter keeps no record of who called [Lock].  To speak about
    holders, a run of the lock manager is followed from outside: a caller
    whose [Lock] returned [nil] holds the identifier until its [Unlock]
    returns. *)
Module LockManager.
Section WithCollaborators.
Context `{Collaborators}.

(** A caller: one request being served. *)
Definition holder : Type := nat.

Record lockState : Type := {
  store : Apdb.apdb;
  held : list (holder * URL)
}.

Definition initial (a : Apdb.apdb) : lockState :=
  {| store := a; held := [] |}.

Definition claim_eqb (p q : holder * URL) : bool :=
  Nat.eqb (fst p) (fst q) && URL_eqb (snd p) (snd q).

Fixpoint dropClaim (p : holder * URL) (l : list (holder * URL))
  : list (holder * URL) :=
  match l with
  | [] => []
  | q :: l' => if claim_eqb p q then l' else q :: dropClaim p l'
  end.

Definition holdersOf (id : URL) (s : lockState) : list holder :=
  map fst (filter (fun p => URL_eqb (snd p) id) (held s)).

(** One call of a caller [h] that returns [nil]. *)
Inductive step (c : context) : lockState -> lockState -> Prop :=
| step_acquire (h : holder) (id : URL) (s : lockState) (a' : Apdb.apdb) :
    Apdb.Lock c (Some id) (store s) = (None, a') ->
    step c s {| store := a'; held := (h, id) :: held s |}
| step_release (h : holder) (id : URL) (s : lockState) (a' : Apdb.apdb) :
    In (h, id) (held s) ->
    Apdb.Unlock c (Some id) (store s) = (None, a') ->
    step c s {| store := a'; held := dropClaim (h, id) (held s) |}.

Inductive reachable (c : context) (a : Apdb.apdb) : lockState -> Prop :=
| reachable_initial : reachable c a (initial a)
| reachable_step (s s' : lockState) :
    reachable c a s -> step c s s' -> reachable c a s'.

(** Mutual exclusion, as the lock contract words it. *)
Definition exclusive (s : lockState) : Prop :=
  forall id : URL, (List.length (holdersOf id s) <= 1)%nat.

(** [h] gets the lock on [id] in state [s]: its call returns [nil]. *)
Definition acquires (c : context) (s : lockState) (id : URL) : bool :=
  match Apdb.run (Apdb.Lock c (Some id)) (store s) with
  | None => true
  | Some _ => false
  end.

End WithCollaborators.
End LockManager.

(** ** The application served by the framework *)

(** The [Application] interface, by the two methods the composer calls. *)
Record Application : Type := {
  C2SEnabled : bool;
  S2SEnabled : bool
}.

(** ** The OAuth2 server behind the framework *)
Module OAuth2.
Section WithCollaborators.
Context `{Collaborators}.

(** Modelled from the spec: the credential validation collaborator that
    [oAuth2Server] wraps is declared in a file of the repository that is
    not among the embedded ones.  What it finds in a request is one of:
    a valid credential with its token, no credential, a malformed
    credential, a well-formed credential that is not valid (revoked), or a
    failure of the validation subsystem itself. *)
Inductive validation : Type :=
| ValidCredential (t : tokenInfo)
| NoCredential
| MalformedCredential
| RevokedCredential
| SubsystemFailure (e : error).

(** Modelled from the spec: the [oAuth2Server] struct, missing from the
    embedded files, by the collaborator it consults. *)
Record oAuth2Server : Type := {
  validate : request -> validation
}.

(** Modelled from the spec: the method
    [oAuth2Server.ValidateOAuth2AccessToken], missing from the embedded
    files.  (a) valid credential: authenticated with the token; (b) no
    credential, or a malformed or revoked one: not authenticated and no
    error; (c) subsystem failure: the error. *)
Definition ValidateOAuth2AccessToken (o : oAuth2Server) (w : responseWriter)
  (r : request) : option tokenInfo * bool * option error :=
  match validate o r with
  | ValidCredential t => (Some t, true, None)
  | NoCredential => (None, false, None)
  | MalformedCredential => (None, false, None)
  | RevokedCredential => (None, false, None)
  | SubsystemFailure e => (None, false, Some e)
  end.

End WithCollaborators.
End OAuth2.

(** The behaviours handed to go-fed are built by constructors of the
    repository that are not among the embedded files; the composer only
    passes their results on, so they are taken as they come. *)
Class Behaviors `{Collaborators} : Type := {
  commonBehavior : Type;
  socialBehavior : Type;
  federatingBehavior : Type;
  newCommonBehavior :
    Application -> paths -> database -> transportController ->
    OAuth2.oAuth2Server -> commonBehavior;
  newSocialBehavior :
    Application -> database -> OAuth2.oAuth2Server -> socialBehavior;
  newFederatingBehavior :
    Config.config -> Application -> paths -> database ->
    transportController -> federatingBehavior
}.

(** ** ap_actor.go: the actor composer *)
Module Actor.
Section WithBehaviors.
Context `{Behaviors}.

(** [pub.Actor] values, by the go-fed constructor that built them. *)
Inductive pubActor : Type :=
| NewActor (common : commonBehavior) (c2s : socialBehavior)
    (s2s : federatingBehavior) (db : Apdb.apdb) (clk : clock)
| NewSocialActor (common : commonBehavior) (c2s : socialBehavior)
    (db : Apdb.apdb) (clk : clock)
| NewFederatingActor (common : commonBehavior) (s2s : federatingBehavior)
    (db : Apdb.apdb) (clk : clock).

(** go-fed returns a [pub.FederatingActor], which has the [Send] method,
    from [pub.NewActor] and [pub.NewFederatingActor], and a plain
    [pub.Actor] from [pub.NewSocialActor].  This is the type assertion
    [actor.(pub.FederatingActor)]; it fails on a nil interface value. *)
Definition asFederatingActor (actor : option pubActor) : option pubActor :=
  match actor with
  | Some (NewActor common c2s s2s db clk) =>
      Some (NewActor common c2s s2s db clk)
  | Some (NewFederatingActor common s2s db clk) =>
      Some (NewFederatingActor common s2s db clk)
  | Some (NewSocialActor _ _ _ _) => None
  | None => None
  end.

Definition newActor (c : Config.config) (a : Application) (clk : clock)
  (p : paths) (db : database) (apdb : Apdb.apdb) (o : OAuth2.oAuth2Server)
  (tc : transportController) : option pubActor * option error :=
  let common := newCommonBehavior a p db tc o in
  let cs := C2SEnabled a in
  let ss := S2SEnabled a in
  if negb cs && negb ss then
    (None,
     Some (Errorf "neither C2S nor S2S are enabled by the Application"))
  else if cs && ss then
    let c2s := newSocialBehavior a db o in
    let s2s := newFederatingBehavior c a p db tc in
    (Some (NewActor common c2s s2s apdb clk), None)
  else if cs then
    let c2s := newSocialBehavior a db o in
    (Some (NewSocialActor common c2s apdb clk), None)
  else if ss then
    let s2s := newFederatingBehavior c a p db tc in
    (Some (NewFederatingActor common s2s apdb clk), None)
  else
    (None, None).

Definition supportsOutboundFederation (actor : option pubActor) : bool :=
  match asFederatingActor actor with
  | Some _ => true
  | None => false
  end.

(** The three behaviour variants of the composer. *)
Inductive variant : Type := SocialOnly | FederatingOnly | Combined.

Definition variantOf (actor : pubActor) : variant :=
  match actor with
  | NewActor _ _ _ _ _ => Combined
  | NewSocialActor _ _ _ _ => SocialOnly
  | NewFederatingActor _ _ _ _ => FederatingOnly
  end.

End WithBehaviors.
End Actor.

(** ** framework.go: request-time hooks *)
Module Framework.
Section WithBehaviors.
Context `{Behaviors}.

(** [Send] of a [pub.FederatingActor], a method of go-fed: it returns the
    activity it sent and an error. *)
Variable FederatingActor_Send :
  Actor.pubActor -> context -> option URL -> option vocabType ->
  option activity * option error.

Record framework : Type := {
  scheme : string;
  host : string;
  o : OAuth2.oAuth2Server;
  db : Apdb.apdb;
  actor : option Actor.pubActor;
  federationEnabled : bool
}.

Definition newFramework (scheme host : string) (o : OAuth2.oAuth2Server)
  (db : Apdb.apdb) (actor : option Actor.pubActor) (federationEnabled : bool)
  : framework :=
  {| scheme := scheme;
     host := host;
     o := o;
     db := db;
     actor := actor;
     federationEnabled := federationEnabled |}.

Definition ValidateOAuth2AccessToken (f : framework) (w : responseWriter)
  (r : request) : option tokenInfo * bool * option error :=
  OAuth2.ValidateOAuth2AccessToken (o f) w r.

Definition Send (f : framework) (c : context) (outbox : option URL)
  (t : option vocabType) : option error :=
  if negb (federationEnabled f) then
    Some (Errorf
      "cannot Send: Framework.Send called when federation is not enabled")
  else
    match Actor.asFederatingActor (actor f) with
    | None =>
        Some (Errorf
          "cannot Send: pub.Actor is not a pub.FederatingActor with federation enabled")
    | Some fa =>
        let (_, err) := FederatingActor_Send fa c outbox t in err
    end.

End WithBehaviors.

(** The error kind of an operation attempted against a behaviour that does
    not support it: the two refusals of [Send]. *)
Definition UnsupportedOperation (e : error) : bool :=
  String.prefix "cannot Send: " (errorMessage e).

End Framework.

(** ** Bounded inbox forwarding *)
Module InboxForwarding.













(** Reference notions used to state what the traversals reach. *)






End InboxForwarding.

(** ** Closed instances, for evaluating the definitions *)

#[local] Instance unitCollaborators : Collaborators :=
  {| context := unit;
     database := unit;
     clock := unit;
     paths := unit;
     transportController := unit;
     responseWriter := unit;
     request := string;
     tokenInfo := string;
     orderedCollectionPage := unit;
     collection := unit;
     activity := unit |}.

#[local] Instance recordingBehaviors : Behaviors :=
  {| commonBehavior := Application;
     socialBehavior := Application;
     federatingBehavior := Application * Config.config;
     newCommonBehavior := fun a _ _ _ _ => a;
     newSocialBehavior := fun a _ _ => a;
     newFederatingBehavior := fun c a _ _ _ => (a, c) |}.

Definition exampleNote : URL :=
  {| Scheme := "https"; Host := "example.com"; Path := "/notes/1" |}.

Definition exampleObject : vocabType :=
  {| GetTypeName := "Note"; GetJSONLDId := Some exampleNote |}.

Definition exampleStore : Apdb.apdb := Apdb.newApdb tt.

(** Two callers, 1 and 2, each call [Lock] on the same identifier. *)
Definition twoHolders : LockManager.lockState :=
  {| LockManager.store := exampleStore;
     LockManager.held := [(2%nat, exampleNote); (1%nat, exampleNote)] |}.

(** A collaborator that takes the request for the bearer credential. *)
Definition exampleValidate (r : string)
  : @OAuth2.validation unitCollaborators :=
  if String.eqb r "" then OAuth2.NoCredential
  else if String.eqb r "secret" then
    @OAuth2.ValidCredential unitCollaborators "token-1"
  else OAuth2.RevokedCredential.

Definition exampleOAuth : @OAuth2.oAuth2Server unitCollaborators :=
  @OAuth2.Build_oAuth2Server unitCollaborators exampleValidate.

Definition exampleConfig : Config.config :=
  {| Config.ServerConfig := Config.defaultServerConfig;
     Config.OAuthConfig := Config.defaultOAuthConfig;
     Config.DatabaseConfig :=
       fst (Config.defaultDatabaseConfig Config.postgresDB);
     Config.ActivityPubConfig := Config.defaultActivityPubConfig |}.

Definition composeFor (cs ss : bool) : option Actor.pubActor :=
  fst (Actor.newActor exampleConfig
         {| C2SEnabled := cs; S2SEnabled := ss |}
         tt tt tt exampleStore exampleOAuth tt).

Definition frameworkFor (cs ss : bool) : Framework.framework :=
  Framework.newFramework "https" "example.com" exampleOAuth exampleStore
    (composeFor cs ss) ss.

(** A federating actor whose delivery succeeds. *)
Definition exampleSend (fa : Actor.pubActor) (c : unit)
  (outbox : option URL) (t : option vocabType) : option unit * option error :=
  (Some tt, None).







(** ** The storage and lock contracts of the specification

    Stated over the adapter, so that they can be compared with what the
    adapter does. *)
Module Contract.
Section WithCollaborators.
Context `{Collaborators}.

(** A call that fails: its error result is not nil. *)
Definition fails (err : option error) : Prop :=
  exists e : error, err = Some e.

(** After a successful create of [obj], a get of its id returns [obj] and a
    second create of it fails. *)
Definition create_then_get (a : Apdb.apdb) (c : context) (obj : vocabType)
  : Prop :=
  forall a1 : Apdb.apdb,
    Apdb.Create c (Some obj) a = (None, a1) ->
    fst (Apdb.run (Apdb.Get c (GetJSONLDId obj)) a1) = Some obj /\
    fails (Apdb.run (Apdb.Create c (Some obj)) a1).

(** On a store where [GetJSONLDId obj] was never created, get, update and
    delete each fail. *)
Definition absent_not_found (a : Apdb.apdb) (c : context) (obj : vocabType)
  : Prop :=
  fails (snd (Apdb.run (Apdb.Get c (GetJSONLDId obj)) a)) /\
  fails (Apdb.run (Apdb.Update c (Some obj)) a) /\
  fails (Apdb.run (Apdb.Delete c (GetJSONLDId obj)) a).

(** At most one holder per identifier in every reachable state, and no
    acquisition of an identifier that is held. *)
Definition mutual_exclusion (c : context) (a : Apdb.apdb) : Prop :=
  (forall s : LockManager.lockState,
     LockManager.reachable c a s -> LockManager.exclusive s) /\
  (forall (s : LockManager.lockState) (id : URL),
     LockManager.reachable c a s ->
     LockManager.holdersOf id s <> [] ->
     LockManager.acquires c s id = false).

End WithCollaborators.
End Contract.

(** * Properties *)

(** ** Configuration defaults *)

(** C10: [defaultConfig] refuses every database kind other than "postgres"
    with an error and no configuration; for "postgres" it returns a
    configuration whose database section has kind "postgres", 2 idle
    connections at most and a collection page size of 10. *)
Theorem defaultConfig_database_kind :
  (forall dbkind : string,
     dbkind <> "postgres" ->
     Config.defaultConfig dbkind =
       (None, Some (Errorf ("unsupported database kind: " ++ dbkind)))) /\
  (exists c : Config.config,
     Config.defaultConfig "postgres" = (Some c, None) /\
     Config.DatabaseKind (Config.DatabaseConfig c) = "postgres" /\
     Config.MaxIdleConns (Config.DatabaseConfig c) = 2 /\
     Config.DefaultCollectionPageSize (Config.DatabaseConfig c) = 10).
Proof.
  split.
  - intros dbkind Hkind.
    unfold Config.defaultConfig, Config.defaultDatabaseConfig.
    destruct (String.eqb dbkind Config.postgresDB) eqn:E.
    + apply String.eqb_eq in E. contradiction.
    + reflexivity.
  - eexists. repeat split.
Qed.

(** [defaultConfig_database_kind] at the kind "sqlite". *)
Lemma defaultConfig_database_kind_witness :
  "sqlite" <> "postgres" /\
  Config.defaultConfig "sqlite" =
    (None, Some (Errorf "unsupported database kind: sqlite")).
Proof.
  split.
  - discriminate.
  - apply (proj1 defaultConfig_database_kind "sqlite"). discriminate.
Defined.

(** C8: the default configuration meets every constraint of the
    configuration surface: rate 10 > 0, burst 50 > 0, both recursion depths
    50 >= 0, page size 10 > 0, and the GET and POST header lists both hold
    "(request-target)", "Date" and "Digest". *)
Theorem default_configuration_in_range :
  let ap := Config.defaultActivityPubConfig in
  let sig := Config.defaultHttpSignaturesConfig in
  Config.OutboundRateLimitQPS ap = 10%float /\
  PrimFloat.ltb 0%float (Config.OutboundRateLimitQPS ap) = true /\
  Config.OutboundRateLimitBurst ap = 50 /\
  0 < Config.OutboundRateLimitBurst ap /\
  Config.MaxInboxForwardingRecursionDepth ap = 50 /\
  0 <= Config.MaxInboxForwardingRecursionDepth ap /\
  Config.MaxDeliveryRecursionDepth ap = 50 /\
  0 <= Config.MaxDeliveryRecursionDepth ap /\
  Config.HttpSignaturesConfig ap = sig /\
  (In "(request-target)" (Config.GetHeaders sig) /\
   In "Date" (Config.GetHeaders sig) /\
   In "Digest" (Config.GetHeaders sig)) /\
  (In "(request-target)" (Config.PostHeaders sig) /\
   In "Date" (Config.PostHeaders sig) /\
   In "Digest" (Config.PostHeaders sig)) /\
  (exists c : Config.config,
     Config.defaultConfig Config.postgresDB = (Some c, None) /\
     Config.ActivityPubConfig c = ap /\
     Config.DefaultCollectionPageSize (Config.DatabaseConfig c) = 10 /\
     0 < Config.DefaultCollectionPageSize (Config.DatabaseConfig c)).
Proof.
  cbv zeta.
  repeat match goal with |- _ /\ _ => split end;
    try reflexivity; try (simpl; lia); try (simpl; tauto).
  eexists. repeat split.
Qed.

(** ** The storage adapter *)

Section AdapterProperties.
Context `{Collaborators}.

(** No method of the adapter changes it. *)
Lemma ret_run {A : Type} (x : A) (a : Apdb.apdb) :
  Apdb.ret x a = (x, a).
Proof. reflexivity. Qed.

(** C9: for every context and input, every method of the adapter returns a
    nil error and leaves the adapter as it was; every query returns the zero
    value (no object, [false], no identifier).  [Lock] and [Unlock] return at
    once for any identifier. *)
Theorem apdb_methods_are_placeholders :
  forall (a : Apdb.apdb) (c : context),
    (forall id, Apdb.Lock c id a = (None, a)) /\
    (forall id, Apdb.Unlock c id a = (None, a)) /\
    (forall obj, Apdb.Create c obj a = (None, a)) /\
    (forall obj, Apdb.Update c obj a = (None, a)) /\
    (forall id, Apdb.Delete c id a = (None, a)) /\
    (forall page, Apdb.SetInbox c page a = (None, a)) /\
    (forall page, Apdb.SetOutbox c page a = (None, a)) /\
    (forall id, Apdb.Get c id a = ((None, None), a)) /\
    (forall id, Apdb.Exists c id a = ((false, None), a)) /\
    (forall id, Apdb.Owns c id a = ((false, None), a)) /\
    (forall inbox id, Apdb.InboxContains c inbox id a = ((false, None), a)) /\
    (forall t, Apdb.NewId c t a = ((None, None), a)) /\
    (forall iri, Apdb.ActorForInbox c iri a = ((None, None), a)) /\
    (forall iri, Apdb.ActorForOutbox c iri a = ((None, None), a)) /\
    (forall iri, Apdb.OutboxForInbox c iri a = ((None, None), a)) /\
    (forall iri, Apdb.GetInbox c iri a = ((None, None), a)) /\
    (forall iri, Apdb.GetOutbox c iri a = ((None, None), a)) /\
    (forall iri, Apdb.Followers c iri a = ((None, None), a)) /\
    (forall iri, Apdb.Following c iri a = ((None, None), a)) /\
    (forall iri, Apdb.Liked c iri a = ((None, None), a)).
Proof.
  intros a c.
  repeat match goal with |- _ /\ _ => split end; intros; apply ret_run.
Qed.

End AdapterProperties.

(** ** The actor composer *)

Section ComposerProperties.
Context `{Behaviors}.

(** C1: [newActor] is a function of the two capability flags with four
    cases: neither flag gives an error and no actor; C2S alone the social
    actor; S2S alone the federating actor; both the combined actor.  The
    variant chosen depends on the flags only. *)
Theorem newActor_four_cases :
  forall (c : Config.config) (a : Application) (clk : clock) (p : paths)
         (db : database) (apdb : Apdb.apdb) (o : OAuth2.oAuth2Server)
         (tc : transportController),
    Actor.newActor c a clk p db apdb o tc =
      match C2SEnabled a, S2SEnabled a with
      | false, false =>
          (None,
           Some (Errorf "neither C2S nor S2S are enabled by the Application"))
      | true, false =>
          (Some (Actor.NewSocialActor (newCommonBehavior a p db tc o)
                   (newSocialBehavior a db o) apdb clk), None)
      | false, true =>
          (Some (Actor.NewFederatingActor (newCommonBehavior a p db tc o)
                   (newFederatingBehavior c a p db tc) apdb clk), None)
      | true, true =>
          (Some (Actor.NewActor (newCommonBehavior a p db tc o)
                   (newSocialBehavior a db o)
                   (newFederatingBehavior c a p db tc) apdb clk), None)
      end /\
    option_map Actor.variantOf (fst (Actor.newActor c a clk p db apdb o tc)) =
      match C2SEnabled a, S2SEnabled a with
      | false, false => None
      | true, false => Some Actor.SocialOnly
      | false, true => Some Actor.FederatingOnly
      | true, true => Some Actor.Combined
      end.
Proof.
  intros c a clk p db apdb o tc.
  unfold Actor.newActor.
  destruct (C2SEnabled a), (S2SEnabled a); split; reflexivity.
Qed.

(** An actor answers the type assertion of [Send] exactly when it is the
    federating or the combined variant. *)
Lemma supportsOutboundFederation_variant (actor : Actor.pubActor) :
  Actor.supportsOutboundFederation (Some actor) = true <->
  Actor.variantOf actor = Actor.FederatingOnly \/
  Actor.variantOf actor = Actor.Combined.
Proof.
  destruct actor; simpl; split; intros Hv;
    try reflexivity; try (right; reflexivity); try (left; reflexivity);
    try discriminate; destruct Hv; discriminate.
Qed.

Lemma asFederatingActor_same (actor : option Actor.pubActor)
  (fa : Actor.pubActor) :
  Actor.asFederatingActor actor = Some fa -> actor = Some fa.
Proof.
  destruct actor as [[ | | ] | ]; simpl; intros E;
    try discriminate; injection E as <-; reflexivity.
Qed.

Variable FederatingActor_Send :
  Actor.pubActor -> context -> option URL -> option vocabType ->
  option activity * option error.

(** C2: [Send] fails with an unsupported-operation error when federation
    is not enabled or when the actor has no outbound federation, which is
    the case of every actor other than the federating and the combined one;
    with federation enabled and such an actor it returns the error result of
    the federating actor's own [Send]. *)
Theorem Send_requires_federation :
  forall (f : Framework.framework) (c : context) (outbox : option URL)
         (t : option vocabType),
    (Framework.federationEnabled f = false \/
     Actor.supportsOutboundFederation (Framework.actor f) = false ->
     exists e : error,
       Framework.Send FederatingActor_Send f c outbox t = Some e /\
       Framework.UnsupportedOperation e = true) /\
    (Framework.federationEnabled f = true ->
     Actor.supportsOutboundFederation (Framework.actor f) = true ->
     exists fa : Actor.pubActor,
       Framework.actor f = Some fa /\
       (Actor.variantOf fa = Actor.FederatingOnly \/
        Actor.variantOf fa = Actor.Combined) /\
       Framework.Send FederatingActor_Send f c outbox t =
         snd (FederatingActor_Send fa c outbox t)).
Proof.
  intros f c outbox t.
  unfold Framework.Send, Actor.supportsOutboundFederation.
  split.
  - intros Hoff.
    destruct (Framework.federationEnabled f); simpl.
    + destruct (Actor.asFederatingActor (Framework.actor f)).
      * destruct Hoff; discriminate.
      * eexists. split; reflexivity.
    + eexists. split; reflexivity.
  - intros Hon Hfed. rewrite Hon. simpl.
    destruct (Actor.asFederatingActor (Framework.actor f)) as [fa | ] eqn:E.
    + exists fa.
      pose proof (asFederatingActor_same _ _ E) as Ha.
      split; [exact Ha | split].
      * apply supportsOutboundFederation_variant.
        unfold Actor.supportsOutboundFederation.
        rewrite <- Ha, E. reflexivity.
      * destruct (FederatingActor_Send fa c outbox t). reflexivity.
    + discriminate.
Qed.

(** C6: the gate has three outcomes.  Without a credential, or with a
    malformed or revoked one, it reports "not authenticated" and no error;
    with a valid credential it reports "authenticated" and the token; the
    error is non-nil exactly when the validation subsystem failed. *)
Theorem ValidateOAuth2AccessToken_tri_state :
  forall (f : Framework.framework) (w : responseWriter) (r : request),
    Framework.ValidateOAuth2AccessToken f w r =
      OAuth2.ValidateOAuth2AccessToken (Framework.o f) w r /\
    match OAuth2.validate (Framework.o f) r with
    | OAuth2.ValidCredential tok =>
        Framework.ValidateOAuth2AccessToken f w r = (Some tok, true, None)
    | OAuth2.NoCredential
    | OAuth2.MalformedCredential
    | OAuth2.RevokedCredential =>
        exists tok,
          Framework.ValidateOAuth2AccessToken f w r = (tok, false, None)
    | OAuth2.SubsystemFailure e =>
        exists tok authenticated,
          Framework.ValidateOAuth2AccessToken f w r =
            (tok, authenticated, Some e)
    end /\
    (snd (Framework.ValidateOAuth2AccessToken f w r) <> None <->
     exists e, OAuth2.validate (Framework.o f) r = OAuth2.SubsystemFailure e).
Proof.
  intros f w r.
  unfold Framework.ValidateOAuth2AccessToken, OAuth2.ValidateOAuth2AccessToken.
  split; [reflexivity | ].
  destruct (OAuth2.validate (Framework.o f) r) as [tok | | | | e]; simpl;
    (split;
     [ try reflexivity; repeat eexists
     | split;
       [ intros Hne; try (exfalso; apply Hne; reflexivity); eexists; reflexivity
       | intros [e' He']; try discriminate ] ]).
Qed.

End ComposerProperties.

(** The composer on each pair of flags. *)
Example composeFor_each_pair :
  map (fun flags : bool * bool =>
         option_map Actor.variantOf (composeFor (fst flags) (snd flags)))
    [(false, false); (true, false); (false, true); (true, true)]
  = [None; Some Actor.SocialOnly; Some Actor.FederatingOnly;
     Some Actor.Combined].
Proof. reflexivity. Qed.

(** [Send] with federation enabled, on the actor composed for each pair of
    flags: refused without an actor and on the social actor. *)
Example Send_each_variant :
  map (fun flags : bool * bool =>
         Framework.Send exampleSend
           (Framework.newFramework "https" "example.com" exampleOAuth
              exampleStore (composeFor (fst flags) (snd flags)) true)
           tt (Some exampleNote) (Some exampleObject))
    [(false, false); (true, false); (false, true); (true, true)]
  = [Some (Errorf
       "cannot Send: pub.Actor is not a pub.FederatingActor with federation enabled");
     Some (Errorf
       "cannot Send: pub.Actor is not a pub.FederatingActor with federation enabled");
     None; None].
Proof. reflexivity. Qed.

(** The gate on a request without credential, with a valid one and with a
    revoked one. *)
Example ValidateOAuth2AccessToken_each_request :
  map (Framework.ValidateOAuth2AccessToken (frameworkFor true true) tt)
    [""; "secret"; "stale"]
  = [(None, false, None); (Some "token-1", true, None); (None, false, None)].
Proof. reflexivity. Qed.

(** ** The adapter against the storage contract *)

Section StoreContract.
Context `{Collaborators}.
Open Scope store_scope.

(** C3, as the adapter has it: for every object, create succeeds, a get of
    the identifier just created returns no object and no error, and a
    second create of the same object succeeds as well; the adapter is
    unchanged throughout. *)
Theorem create_stores_nothing :
  forall (a : Apdb.apdb) (c : context) (obj : vocabType),
    (first <- Apdb.Create c (Some obj) ;;
     found <- Apdb.Get c (GetJSONLDId obj) ;;
     second <- Apdb.Create c (Some obj) ;;
     Apdb.ret (first, found, second)) a
    = ((None, (None, None), None), a).
Proof. intros a c obj. reflexivity. Qed.

(** C4, as the adapter has it: for every identifier, created or not, get
    returns no object and a nil error, and update and delete return a nil
    error; none of them fails. *)
Theorem absent_identifier_no_error :
  forall (a : Apdb.apdb) (c : context) (id : option URL)
         (obj : option vocabType),
    Apdb.Get c id a = ((None, None), a) /\
    Apdb.Update c obj a = (None, a) /\
    Apdb.Delete c id a = (None, a) /\
    ~ Contract.fails (snd (Apdb.run (Apdb.Get c id) a)) /\
    ~ Contract.fails (Apdb.run (Apdb.Update c obj) a) /\
    ~ Contract.fails (Apdb.run (Apdb.Delete c id) a).
Proof.
  intros a c id obj.
  repeat match goal with |- _ /\ _ => split end;
    try reflexivity; intros [e He]; discriminate He.
Qed.

(** Every reachable state of the lock manager has the adapter it started
    with. *)
Lemma reachable_store (c : context) (a : Apdb.apdb)
  (s : LockManager.lockState) :
  LockManager.reachable c a s -> LockManager.store s = a.
Proof.
  induction 1 as [ | s s' Hreach IH Hstep].
  - reflexivity.
  - destruct Hstep as [h id s a' Hlock | h id s a' Hin Hunlock]; simpl.
    + unfold Apdb.Lock, Apdb.ret in Hlock. congruence.
    + unfold Apdb.Unlock, Apdb.ret in Hunlock. congruence.
Qed.

(** C5, as the adapter has it: in every reachable state [Lock] returns nil
    at once for every identifier, held or not, so any caller may become one
    more holder of it; the adapter keeps no holder and bounds nothing. *)
Theorem Lock_excludes_nobody :
  forall (c : context) (a : Apdb.apdb) (s : LockManager.lockState),
    LockManager.reachable c a s ->
    forall (h : LockManager.holder) (id : URL),
      LockManager.acquires c s id = true /\
      LockManager.reachable c a
        {| LockManager.store := LockManager.store s;
           LockManager.held := (h, id) :: LockManager.held s |} /\
      LockManager.holdersOf id
        {| LockManager.store := LockManager.store s;
           LockManager.held := (h, id) :: LockManager.held s |}
      = h :: LockManager.holdersOf id s.
Proof.
  intros c a s Hreach h id.
  split; [reflexivity | split].
  - eapply LockManager.reachable_step; [exact Hreach | ].
    apply LockManager.step_acquire. reflexivity.
  - unfold LockManager.holdersOf. simpl.
    assert (Hid : URL_eqb id id = true).
    { unfold URL_eqb. rewrite !String.eqb_refl. reflexivity. }
    rewrite Hid. reflexivity.
Qed.

End StoreContract.

(** C3 fails on the adapter: on a fresh adapter the create of a note
    succeeds, and the get of the note's identifier that follows does not
    return the note. *)
Lemma create_then_get_counterexample :
  ~ Contract.create_then_get exampleStore tt exampleObject.
Proof.
  intros Hcontract.
  destruct (Hcontract exampleStore eq_refl) as [Hget _].
  discriminate Hget.
Qed.

(** C4 fails on the adapter: on a fresh adapter, where nothing was ever
    created, the get of an identifier returns a nil error. *)
Lemma absent_not_found_counterexample :
  ~ Contract.absent_not_found exampleStore tt exampleObject.
Proof.
  intros [[e Hget] _]. discriminate Hget.
Qed.

Lemma twoHolders_reachable :
  LockManager.reachable tt exampleStore twoHolders.
Proof.
  eapply LockManager.reachable_step
    with (s := {| LockManager.store := exampleStore;
                  LockManager.held := [(1%nat, exampleNote)] |}).
  - eapply LockManager.reachable_step
      with (s := LockManager.initial exampleStore).
    + apply LockManager.reachable_initial.
    + apply (@LockManager.step_acquire unitCollaborators tt 1%nat
               exampleNote (LockManager.initial exampleStore) exampleStore).
      reflexivity.
  - apply (@LockManager.step_acquire unitCollaborators tt 2%nat
             exampleNote
             {| LockManager.store := exampleStore;
                LockManager.held := [(1%nat, exampleNote)] |} exampleStore).
    reflexivity.
Qed.

(** C5 fails on the adapter: after callers 1 and 2 have each locked the
    same note, both hold it. *)
Lemma mutual_exclusion_counterexample :
  LockManager.holdersOf exampleNote twoHolders = [2%nat; 1%nat] /\
  ~ Contract.mutual_exclusion tt exampleStore.
Proof.
  split; [reflexivity | ].
  intros [Hexclusive _].
  specialize (Hexclusive twoHolders twoHolders_reachable exampleNote).
  vm_compute in Hexclusive. lia.
Qed.

(** [Lock_excludes_nobody] at the state where callers 1 and 2 both hold
    the note: a third caller's [Lock] on the held note succeeds at once and
    makes it a third holder. *)
Lemma Lock_excludes_nobody_witness :
  LockManager.reachable tt exampleStore twoHolders /\
  LockManager.holdersOf exampleNote twoHolders = [2%nat; 1%nat] /\
  LockManager.acquires tt twoHolders exampleNote = true /\
  LockManager.reachable tt exampleStore
    {| LockManager.store := LockManager.store twoHolders;
       LockManager.held := (3%nat, exampleNote) :: LockManager.held twoHolders |}
  /\
  LockManager.holdersOf exampleNote
    {| LockManager.store := LockManager.store twoHolders;
       LockManager.held := (3%nat, exampleNote) :: LockManager.held twoHolders |}
  = [3%nat; 2%nat; 1%nat].
Proof.
  split; [exact twoHolders_reachable | split; [reflexivity | ]].
  exact (@Lock_excludes_nobody unitCollaborators tt exampleStore twoHolders
           twoHolders_reachable 3%nat exampleNote).
Defined.

(** [Send_requires_federation] at the framework of a C2S-only application,
    where [Send] is refused, and at that of an S2S-only application, where
    the federating actor delivers. *)
Lemma Send_requires_federation_witness :
  (Framework.federationEnabled (frameworkFor true false) = false \/
   Actor.supportsOutboundFederation
     (Framework.actor (frameworkFor true false)) = false) /\
  (exists e : error,
     Framework.Send exampleSend (frameworkFor true false) tt
       (Some exampleNote) (Some exampleObject) = Some e /\
     Framework.UnsupportedOperation e = true) /\
  Framework.federationEnabled (frameworkFor false true) = true /\
  Actor.supportsOutboundFederation
    (Framework.actor (frameworkFor false true)) = true /\
  Framework.Send exampleSend (frameworkFor false true) tt
    (Some exampleNote) (Some exampleObject) = None.
Proof.
  split; [left; reflexivity | split].
  - apply (proj1 (@Send_requires_federation unitCollaborators
                    recordingBehaviors exampleSend (frameworkFor true false)
                    tt (Some exampleNote) (Some exampleObject))).
    left; reflexivity.
  - split; [reflexivity | split; [reflexivity | ]].
    destruct (proj2 (@Send_requires_federation unitCollaborators
                       recordingBehaviors exampleSend
                       (frameworkFor false true)
                       tt (Some exampleNote) (Some exampleObject))
                eq_refl eq_refl) as [fa [_ [_ Hsend]]].
    exact Hsend.
Defined.

(** ** Bounded inbox forwarding *)
















